(** * smbus.h: the SMBus access layer of lm-sensors

    A shallow embedding of [src/smbus.h]: the structures (driver, client,
    algorithm, adapter), the [smbus_data] union and the inline access
    routines built on the external dispatcher [smbus_access].

    Conventions of the embedding:
    - a [u8] is a [Byte.byte]; [s32], [int] and [u16] values are in [Z];
    - memory reached through a pointer is a [storage]: the byte found at
      each offset from the pointee.  The union [smbus_data] is the first
      [sizeof_smbus_data] bytes behind [&data]; a store to [data.block[i]]
      goes to offset [i], whether or not [i] lies inside the union.  After a
      call the union holds what the dispatcher left; a load of
      [data.block[i]] past the union finds a byte of the stack frame;
    - [smbus_access] is only declared in the header.  An inline routine is
      a [proc]: it issues one [Access] request and continues with the
      status and with the contents the dispatcher left behind the data
      pointer.  [run] executes a [proc] against any dispatcher. *)

From Stdlib Require Import ZArith List Bool Lia String.
From Stdlib Require Import Strings.Byte.
Import ListNotations.

Local Open Scope Z_scope.

(** ** Scalars *)

Definition u8 := byte.
Definition u16 := Z.
Definition s32 := Z.

Definition u8_to_nat (b : u8) : nat := Byte.to_nat b.
Definition u8_to_Z (b : u8) : Z := Z.of_nat (Byte.to_nat b).

(** Conversion of an integer to [u8] keeps the low eight bits. *)
Definition u8_of_Z (z : Z) : u8 :=
  match Byte.of_nat (Z.to_nat (z mod 256)) with
  | Some b => b
  | None => x00
  end.

(** Pointers to objects that the header never dereferences, and pointers to
    functions, are addresses; 0 is NULL. *)
Definition pointer := N.
Definition NULL : pointer := 0%N.

(** ** Memory behind a pointer *)

Definition storage := nat -> u8.

Definition store (m : storage) (i : nat) (v : u8) : storage :=
  fun j => if Nat.eqb j i then v else m j.

(** [for (i = 1; i <= n; i++) body] on a state [s]. *)
Definition for_1_to {S : Type} (n : nat) (body : nat -> S -> S) (s : S) : S :=
  fold_left (fun s i => body i s) (seq 1 n) s.

(** ** The structures *)

(** [struct smbus_driver]; the five hooks are function pointers. *)
Record smbus_driver := mk_smbus_driver {
  drv_name : string;
  drv_id : Z;
  drv_flags : Z;
  drv_attach_adapter : pointer;
  drv_detach_client : pointer;
  drv_command : pointer;
  drv_inc_use : pointer;
  drv_dec_use : pointer
}.

(** [struct smbus_client]; [adapter], [driver] and [data] are pointers. *)
Record smbus_client := mk_smbus_client {
  cl_name : string;
  cl_id : Z;
  cl_flags : Z;
  cl_addr : u8;
  cl_adapter : pointer;
  cl_driver : pointer;
  cl_data : pointer
}.

(** [struct smbus_algorithm]. *)
Record smbus_algorithm := mk_smbus_algorithm {
  algo_name : string;
  algo_id : Z;
  algo_master_xfer : pointer;
  algo_slave_send : pointer;
  algo_slave_recv : pointer;
  algo_algo_control : pointer;
  algo_client_register : pointer;
  algo_client_unregister : pointer
}.

(** [struct smbus_adapter].  [adap_algo] is the algorithm [algo] points to.
    [adap_clients] lists the occupied entries of [clients[I2C_CLIENT_MAX]].
    [adap_lock] tells whether the semaphore (or spinlock) is held.  The last
    field comes after the part shared with the i2c structure. *)
Record smbus_adapter := mk_smbus_adapter {
  adap_name : string;
  adap_id : Z;
  adap_algo : smbus_algorithm;
  adap_data : pointer;
  adap_lock : bool;
  adap_flags : Z;
  adap_clients : list smbus_client;
  adap_client_count : Z;
  adap_timeout : Z;
  adap_retries : Z;
  adap_smbus_access : pointer
}.

Definition ALGO_SMBUS : Z := 0x40000.

(** ** Attaching and detaching clients

    [smbus_attach_client] and [smbus_detach_client] are declared in the
    header and defined elsewhere, and [I2C_CLIENT_MAX] comes from [i2c.h]. *)

Inductive registry_error :=
| DuplicateRegistration
| UnknownId
| ResourceInUse
| AddressConflict
| AdapterFull
| DriverRefused (status : Z).

Inductive outcome := Success | Failure (e : registry_error).

(** The driver hooks invoked on a client, in the order of invocation. *)
Inductive hook_call :=
| HookIncUse (c : smbus_client)
| HookDetachClient (c : smbus_client)
| HookDecUse (c : smbus_client).

Definition smbus_client_eq_dec (c1 c2 : smbus_client) : {c1 = c2} + {c1 <> c2}.
Proof.
  decide equality;
    solve [ apply N.eq_dec | apply Z.eq_dec | apply byte_eq_dec | apply string_dec ].
Defined.

Definition address_taken (addr : u8) (a : smbus_adapter) : bool :=
  existsb (fun c => Byte.eqb (cl_addr c) addr) (adap_clients a).

Definition set_clients (a : smbus_adapter) (cs : list smbus_client) (n : Z) : smbus_adapter :=
  mk_smbus_adapter (adap_name a) (adap_id a) (adap_algo a) (adap_data a) (adap_lock a)
    (adap_flags a) cs n (adap_timeout a) (adap_retries a) (adap_smbus_access a).

Section ClientList.

(** The capacity of [clients[]]. *)
Variable I2C_CLIENT_MAX : Z.

(** The status that the driver's [detach_client] hook returns for a client. *)
Variable driver_detach_client : smbus_client -> Z.

(** Modelled from the spec: the body of [smbus_attach_client] is missing.
    It checks the spare capacity of the client's adapter ([client_count <
    max]), then that the address is free on that adapter, inserts the
    client, increments [client_count] and invokes the driver's
    usage-increment hook; it fails with AdapterFull or AddressConflict.
    [a] is the adapter [client->adapter] points to and [hooks] the hook
    invocations so far. *)
Definition smbus_attach_client (client : smbus_client) (a : smbus_adapter)
    (hooks : list hook_call) : outcome * smbus_adapter * list hook_call :=
  if negb (adap_client_count a <? I2C_CLIENT_MAX) then (Failure AdapterFull, a, hooks)
  else if address_taken (cl_addr client) a then (Failure AddressConflict, a, hooks)
  else
    (Success,
     set_clients a (adap_clients a ++ [client]) (adap_client_count a + 1),
     hooks ++ [HookIncUse client]).

(** Modelled from the spec: the body of [smbus_detach_client] is missing.
    It invokes the driver's [detach_client] hook, which may fail and abort
    the detach; then it removes the client from the adapter's list and
    decrements [client_count], then invokes the usage-decrement hook. *)
Definition smbus_detach_client (client : smbus_client) (a : smbus_adapter)
    (hooks : list hook_call) : outcome * smbus_adapter * list hook_call :=
  let hooks := hooks ++ [HookDetachClient client] in
  if negb (driver_detach_client client =? 0)
  then (Failure (DriverRefused (driver_detach_client client)), a, hooks)
  else
    (Success,
     set_clients a (remove smbus_client_eq_dec client (adap_clients a))
       (adap_client_count a - 1),
     hooks ++ [HookDecUse client]).

(** A history of an adapter: attach and detach calls, failed ones included. *)
Inductive client_op :=
| OpAttach (c : smbus_client)
| OpDetach (c : smbus_client).

Definition apply_op (op : client_op) (st : smbus_adapter * list hook_call)
    : smbus_adapter * list hook_call :=
  match op with
  | OpAttach c => let '(_, a, h) := smbus_attach_client c (fst st) (snd st) in (a, h)
  | OpDetach c => let '(_, a, h) := smbus_detach_client c (fst st) (snd st) in (a, h)
  end.

Definition apply_ops (ops : list client_op) (st : smbus_adapter * list hook_call)
    : smbus_adapter * list hook_call :=
  fold_left (fun st op => apply_op op st) ops st.

End ClientList.

(** ** The data union *)

(** [union smbus_data { __u8 byte; __u16 word; __u8 block[32]; }] *)
Definition smbus_data_block_len : nat := 32.
Definition sizeof_smbus_data : nat := 32.

Inductive endianness := LittleEndian | BigEndian.

Definition SMBUS_READ : Z := 1.
Definition SMBUS_WRITE : Z := 0.

Definition SMBUS_QUICK : Z := 0.
Definition SMBUS_BYTE : Z := 1.
Definition SMBUS_BYTE_DATA : Z := 2.
Definition SMBUS_WORD_DATA : Z := 3.
Definition SMBUS_PROC_CALL : Z := 4.
Definition SMBUS_BLOCK_DATA : Z := 5.

(** The arguments of one call of the dispatcher
    [smbus_access (adapter, addr, read_write, command, size, data)].
    [rq_data] is [None] for a NULL pointer and otherwise the memory behind
    the pointer at the time of the call. *)
Record smbus_request := mk_smbus_request {
  rq_adapter : pointer;
  rq_addr : u8;
  rq_read_write : Z;
  rq_command : u8;
  rq_size : Z;
  rq_data : option storage
}.

(** An inline routine: it returns, or calls the dispatcher and goes on
    with the returned status and the memory left behind the data pointer
    (of no meaning after a call with a NULL pointer). *)
Inductive proc (R : Type) : Type :=
| Return (r : R)
| Access (rq : smbus_request) (k : s32 -> storage -> proc R).

Arguments Return {R} r.
Arguments Access {R} rq k.

Definition request_of {R : Type} (p : proc R) : option smbus_request :=
  match p with
  | Return _ => None
  | Access rq _ => Some rq
  end.

(** Execution against a dispatcher acting on a bus state [B]. *)
Fixpoint run {B R : Type} (access : smbus_request -> B -> s32 * storage * B)
    (p : proc R) (b : B) : R * B :=
  match p with
  | Return r => (r, b)
  | Access rq k => let '(status, data, b') := access rq b in run access (k status data) b'
  end.

(** ** Test fixtures *)

(** A dispatcher that records each request and answers every call with
    the same status and the same memory contents. *)
Definition scripted_access (status : s32) (reply : storage)
    (rq : smbus_request) (log : list smbus_request)
    : s32 * storage * list smbus_request :=
  (status, reply, log ++ [rq]).

(** Memory holding the bytes of [l], then zeroes. *)
Definition storage_of_list (l : list u8) : storage := fun i => nth i l x00.

Definition zeroed : storage := fun _ => x00.

(** Two adapters bound to one algorithm, each with its own access routine. *)
Definition example_algorithm : smbus_algorithm :=
  mk_smbus_algorithm "SMBus" ALGO_SMBUS NULL NULL NULL NULL NULL NULL.

Definition example_adapter (name : string) (id : Z) (access : pointer) : smbus_adapter :=
  mk_smbus_adapter name id example_algorithm NULL false 0 [] 0 0 0 access.

Definition example_client (addr : u8) : smbus_client :=
  mk_smbus_client "chip" 0 0 addr NULL NULL NULL.

Section Platform.

(** What the C implementation leaves open: whether [char] is signed, and
    the order of the two bytes of a [__u16]. *)
Variable char_signed : bool.
Variable byte_order : endianness.

(** Conversion of a [u8] argument to the [char] parameter [read_write]. *)
Definition char_of_u8 (b : u8) : Z :=
  if char_signed && (128 <=? u8_to_Z b) then u8_to_Z b - 256 else u8_to_Z b.

(** The three views of the union on the memory [d] behind [&data]. *)
Definition data_byte (d : storage) : u8 := d 0%nat.

Definition data_word (d : storage) : u16 :=
  match byte_order with
  | LittleEndian => u8_to_Z (d 0%nat) + 256 * u8_to_Z (d 1%nat)
  | BigEndian => 256 * u8_to_Z (d 0%nat) + u8_to_Z (d 1%nat)
  end.

Definition data_block (d : storage) (i : nat) : u8 := d i.

(** The memory behind [&data] after a call of the dispatcher: the union
    holds the answer [reply]; from [sizeof_smbus_data] on lies the stack
    frame, where a load at offset [i] finds [stack i]. *)
Definition behind_data (reply stack : storage) : storage :=
  fun i => if (i <? sizeof_smbus_data)%nat then reply i else stack i.

Definition set_data_byte (d : storage) (v : u8) : storage := store d 0 v.

Definition set_data_word (d : storage) (v : u16) : storage :=
  match byte_order with
  | LittleEndian => store (store d 0 (u8_of_Z v)) 1 (u8_of_Z (v / 256))
  | BigEndian => store (store d 0 (u8_of_Z (v / 256))) 1 (u8_of_Z v)
  end.

Definition set_data_block (d : storage) (i : nat) (v : u8) : storage := store d i v.

(** ** The access routines

    A routine that declares [union smbus_data data] takes the contents
    [data] that the fresh local happens to have. *)

Definition smbus_write_quick (adapter : pointer) (addr value : u8) : proc s32 :=
  Access (mk_smbus_request adapter addr (char_of_u8 value) x00 SMBUS_QUICK None)
    (fun status _ => Return status).

Definition smbus_read_byte (adapter : pointer) (addr : u8) (data : storage) : proc s32 :=
  Access (mk_smbus_request adapter addr SMBUS_READ x00 SMBUS_BYTE (Some data))
    (fun status data =>
       if negb (status =? 0) then Return (-1)
       else Return (u8_to_Z (data_byte data))).

Definition smbus_write_byte (adapter : pointer) (addr value : u8) : proc s32 :=
  Access (mk_smbus_request adapter addr SMBUS_WRITE value SMBUS_BYTE None)
    (fun status _ => Return status).

Definition smbus_read_byte_data (adapter : pointer) (addr command : u8)
    (data : storage) : proc s32 :=
  Access (mk_smbus_request adapter addr SMBUS_READ command SMBUS_BYTE_DATA (Some data))
    (fun status data =>
       if negb (status =? 0) then Return (-1)
       else Return (u8_to_Z (data_byte data))).

Definition smbus_write_byte_data (adapter : pointer) (addr command value : u8)
    (data : storage) : proc s32 :=
  let data := set_data_byte data value in
  Access (mk_smbus_request adapter addr SMBUS_WRITE command SMBUS_BYTE_DATA (Some data))
    (fun status _ => Return status).

Definition smbus_read_word_data (adapter : pointer) (addr command : u8)
    (data : storage) : proc s32 :=
  Access (mk_smbus_request adapter addr SMBUS_READ command SMBUS_WORD_DATA (Some data))
    (fun status data =>
       if negb (status =? 0) then Return (-1)
       else Return (data_word data)).

Definition smbus_write_word_data (adapter : pointer) (addr command : u8) (value : u16)
    (data : storage) : proc s32 :=
  let data := set_data_word data value in
  Access (mk_smbus_request adapter addr SMBUS_WRITE command SMBUS_WORD_DATA (Some data))
    (fun status _ => Return status).

Definition smbus_process_call (adapter : pointer) (addr command : u8) (value : u16)
    (data : storage) : proc s32 :=
  let data := set_data_word data value in
  Access (mk_smbus_request adapter addr SMBUS_WRITE command SMBUS_PROC_CALL (Some data))
    (fun status data =>
       if negb (status =? 0) then Return (-1)
       else Return (data_word data)).

(** Returns the number of read bytes, and the caller's buffer [values].
    [block] has 32 elements and the loop runs up to the length byte, so
    from [i = 32] on it loads the byte [stack i] that the stack frame
    holds past the union when iteration [i] reads it. *)
Definition smbus_read_block_data (adapter : pointer) (addr command : u8)
    (values : storage) (data : storage) (stack : storage) : proc (s32 * storage) :=
  Access (mk_smbus_request adapter addr SMBUS_READ command SMBUS_BLOCK_DATA (Some data))
    (fun status reply =>
       let data := behind_data reply stack in
       if negb (status =? 0) then Return (-1, values)
       else
         let values :=
           for_1_to (u8_to_nat (data_block data 0))
             (fun i values => store values (i - 1) (data_block data i)) values in
         Return (u8_to_Z (data_block data 0), values)).

Definition smbus_write_block_data (adapter : pointer) (addr command length : u8)
    (values : storage) (data : storage) : proc s32 :=
  let length := if (32 <? u8_to_nat length)%nat then x20 else length in
  let data :=
    for_1_to (u8_to_nat length)
      (fun i data => set_data_block data i (values (i - 1)%nat)) data in
  let data := set_data_block data 0 length in
  Access (mk_smbus_request adapter addr SMBUS_WRITE command SMBUS_BLOCK_DATA (Some data))
    (fun status _ => Return status).

End Platform.

(** The transaction type and the command byte of the call a routine makes. *)
Definition kind_and_command {R : Type} (p : proc R) : option (Z * u8) :=
  option_map (fun rq => (rq_size rq, rq_command rq)) (request_of p).

(** What a caller may see of a read: a result between 0 and [hi] after
    status 0, and -1 after any other status. *)
Definition status_collapsed (status : s32) (result : s32) (hi : Z) : Prop :=
  (status = 0 -> 0 <= result <= hi) /\ (status <> 0 -> result = -1).

(** Two memories that hold the same bytes throughout the union. *)
Definition agree_on_union (d1 d2 : storage) : Prop :=
  forall i : nat, (i < sizeof_smbus_data)%nat -> d1 i = d2 i.

(** A routine that makes one call and hands its status, whatever it is,
    and the bus it leaves to the caller. *)
Definition passes_status {B : Type} (access : smbus_request -> B -> s32 * storage * B)
    (p : proc s32) (b : B) : Prop :=
  match request_of p with
  | Some rq => run access p b = (fst (fst (access rq b)), snd (access rq b))
  | None => False
  end.

(** * Properties *)

(** ** Bytes, memory and loops *)

Lemma u8_to_Z_range (b : u8) : 0 <= u8_to_Z b <= 255.
Proof.
  unfold u8_to_Z. pose proof (Byte.to_nat_bounded b). lia.
Qed.

Lemma u8_to_Z_nat (b : u8) : u8_to_Z b = Z.of_nat (u8_to_nat b).
Proof. reflexivity. Qed.

Lemma u8_to_Z_of_Z (z : Z) : u8_to_Z (u8_of_Z z) = z mod 256.
Proof.
  unfold u8_to_Z, u8_of_Z.
  assert (Hr : 0 <= z mod 256 < 256) by (apply Z.mod_pos_bound; lia).
  destruct (Byte.of_nat (Z.to_nat (z mod 256))) as [b|] eqn:E.
  - apply Byte.to_of_nat in E. rewrite E. lia.
  - apply Byte.of_nat_None_iff in E. lia.
Qed.

Lemma store_same (m : storage) (i : nat) (v : u8) : store m i v i = v.
Proof. unfold store. now rewrite Nat.eqb_refl. Qed.

Lemma store_other (m : storage) (i j : nat) (v : u8) : j <> i -> store m i v j = m j.
Proof.
  intros H. unfold store. destruct (Nat.eqb_spec j i); [contradiction | reflexivity].
Qed.

Lemma for_1_to_0 {S : Type} (body : nat -> S -> S) (s : S) : for_1_to 0 body s = s.
Proof. reflexivity. Qed.

Lemma for_1_to_succ {S : Type} (n : nat) (body : nat -> S -> S) (s : S) :
  for_1_to (Datatypes.S n) body s = body (Datatypes.S n) (for_1_to n body s).
Proof.
  unfold for_1_to. rewrite seq_S, fold_left_app. reflexivity.
Qed.

(** The marshalling loop of the block write: offsets 1 to [n] receive the
    caller's bytes, every other offset keeps its contents. *)
Lemma marshal_loop (n : nat) (values data : storage) (j : nat) :
  for_1_to n (fun i d => store d i (values (i - 1)%nat)) data j =
  if ((1 <=? j) && (j <=? n))%nat then values (j - 1)%nat else data j.
Proof.
  induction n as [|n IH].
  - rewrite for_1_to_0. destruct j; reflexivity.
  - rewrite for_1_to_succ. destruct (Nat.eq_dec j (Datatypes.S n)) as [->|Hne].
    + rewrite store_same.
      replace ((1 <=? Datatypes.S n) && (Datatypes.S n <=? Datatypes.S n))%nat with true; [reflexivity|].
      symmetry. apply andb_true_iff. split; apply Nat.leb_le; lia.
    + rewrite store_other by assumption. rewrite IH.
      destruct (Nat.leb_spec 1 j); simpl; [|reflexivity].
      destruct (Nat.leb_spec j n), (Nat.leb_spec j (Datatypes.S n)); try reflexivity; lia.
Qed.

(** The copy loop of the block read: the first [n] bytes of the buffer
    receive the bytes at offsets 1 to [n] of the data, the rest is kept. *)
Lemma unmarshal_loop (n : nat) (data values : storage) (j : nat) :
  for_1_to n (fun i vs => store vs (i - 1) (data i)) values j =
  if (j <? n)%nat then data (Datatypes.S j) else values j.
Proof.
  induction n as [|n IH].
  - rewrite for_1_to_0. reflexivity.
  - rewrite for_1_to_succ. simpl Nat.sub. rewrite Nat.sub_0_r.
    destruct (Nat.eq_dec j n) as [->|Hne].
    + rewrite store_same.
      destruct (Nat.ltb_spec n (Datatypes.S n)); [reflexivity | lia].
    + rewrite store_other by assumption. rewrite IH.
      destruct (Nat.ltb_spec j n), (Nat.ltb_spec j (Datatypes.S n)); try reflexivity; lia.
Qed.

Lemma run_access {B R : Type} (access : smbus_request -> B -> s32 * storage * B)
    (rq : smbus_request) (k : s32 -> storage -> proc R) (b : B) :
  run access (Access rq k) b =
  run access (k (fst (fst (access rq b))) (snd (fst (access rq b)))) (snd (access rq b)).
Proof.
  simpl. destruct (access rq b) as [[status reply] b']. reflexivity.
Qed.

Lemma clamp_above (length : u8) :
  (32 < u8_to_nat length)%nat ->
  (if (32 <? u8_to_nat length)%nat then x20 else length) = x20.
Proof.
  intros H. destruct (Nat.ltb_spec 32 (u8_to_nat length)); [reflexivity | lia].
Qed.

Lemma clamp_value (length : u8) :
  u8_to_Z (if (32 <? u8_to_nat length)%nat then x20 else length) =
  Z.min (u8_to_Z length) 32.
Proof.
  rewrite (u8_to_Z_nat length).
  destruct (Nat.ltb_spec 32 (u8_to_nat length)).
  - change (u8_to_Z x20) with 32. lia.
  - rewrite u8_to_Z_nat. lia.
Qed.

Lemma behind_data_union (reply stack : storage) (i : nat) :
  (i < sizeof_smbus_data)%nat -> behind_data reply stack i = reply i.
Proof.
  intros H. unfold behind_data.
  destruct (Nat.ltb_spec i sizeof_smbus_data); [reflexivity | lia].
Qed.

Lemma behind_data_past (reply stack : storage) (i : nat) :
  (sizeof_smbus_data <= i)%nat -> behind_data reply stack i = stack i.
Proof.
  intros H. unfold behind_data.
  destruct (Nat.ltb_spec i sizeof_smbus_data); [lia | reflexivity].
Qed.

(** The block read after a successful call: the count is the length byte
    of the answer, and each buffer offset below it receives the byte
    loaded one offset further behind [&data]. *)
Lemma smbus_read_block_data_success
    (B : Type) (access : smbus_request -> B -> s32 * storage * B)
    (adapter : pointer) (addr command : u8) (values data stack : storage) (b : B)
    (reply : storage) (b' : B) :
  access (mk_smbus_request adapter addr SMBUS_READ command SMBUS_BLOCK_DATA (Some data)) b
    = (0, reply, b') ->
  exists values' : storage,
    run access (smbus_read_block_data adapter addr command values data stack) b
      = (u8_to_Z (reply 0%nat), values', b') /\
    forall j : nat,
      values' j = if (j <? u8_to_nat (reply 0%nat))%nat
                  then behind_data reply stack (S j) else values j.
Proof.
  intros Hacc. unfold smbus_read_block_data. rewrite run_access, Hacc.
  simpl fst. simpl snd. change (negb (0 =? 0)) with false. cbv iota zeta.
  unfold data_block.
  rewrite (behind_data_union reply stack 0) by (unfold sizeof_smbus_data; lia).
  eexists. split; [reflexivity|].
  intros j. apply unmarshal_loop.
Qed.

Lemma smbus_read_block_data_failure
    (B : Type) (access : smbus_request -> B -> s32 * storage * B)
    (adapter : pointer) (addr command : u8) (values data stack : storage) (b : B)
    (status : s32) (reply : storage) (b' : B) :
  access (mk_smbus_request adapter addr SMBUS_READ command SMBUS_BLOCK_DATA (Some data)) b
    = (status, reply, b') ->
  status <> 0 ->
  run access (smbus_read_block_data adapter addr command values data stack) b
    = (-1, values, b').
Proof.
  intros Hacc Hne. unfold smbus_read_block_data. rewrite run_access, Hacc.
  simpl fst. simpl snd. apply Z.eqb_neq in Hne. rewrite Hne. reflexivity.
Qed.

(** ** The block write *)

(** C1: a length above 32 gives the very routine, hence the very call of
    smbus_access, that length 32 gives; for every length the byte at
    block[0] of the data passed is min(length, 32), offsets 1 to that
    length carry the caller's bytes, and the routine returns the status of
    smbus_access as it is, so the truncation raises no error. *)
Theorem smbus_write_block_data_clamps
    (adapter : pointer) (addr command length : u8) (values data : storage) :
  ((32 < u8_to_nat length)%nat ->
   smbus_write_block_data adapter addr command length values data =
   smbus_write_block_data adapter addr command x20 values data) /\
  exists d : storage,
    let rq := mk_smbus_request adapter addr SMBUS_WRITE command SMBUS_BLOCK_DATA (Some d) in
    request_of (smbus_write_block_data adapter addr command length values data) = Some rq /\
    u8_to_Z (data_block d 0) = Z.min (u8_to_Z length) 32 /\
    (forall i : nat, 1 <= Z.of_nat i <= Z.min (u8_to_Z length) 32 ->
       data_block d i = values (i - 1)%nat) /\
    forall (B : Type) (access : smbus_request -> B -> s32 * storage * B) (b : B),
      run access (smbus_write_block_data adapter addr command length values data) b =
      (fst (fst (access rq b)), snd (access rq b)).
Proof.
  split.
  - intros H. unfold smbus_write_block_data. cbv zeta.
    rewrite (clamp_above length H). reflexivity.
  - unfold smbus_write_block_data. cbv zeta.
    eexists. cbv zeta. split; [reflexivity|]. split; [|split].
    + unfold data_block, set_data_block. rewrite store_same. apply clamp_value.
    + intros i Hi. unfold data_block, set_data_block.
      rewrite store_other by lia.
      rewrite (marshal_loop _ values data i).
      match goal with
      | |- context [Nat.leb i (u8_to_nat ?l)] =>
          assert (Hc : Z.of_nat (u8_to_nat l) = Z.min (u8_to_Z length) 32)
            by (rewrite <- u8_to_Z_nat; apply clamp_value);
          destruct (Nat.leb_spec i (u8_to_nat l)); [|lia]
      end.
      destruct (Nat.leb_spec 1 i); [reflexivity | lia].
    + intros B access b. rewrite run_access. reflexivity.
Qed.

Lemma smbus_write_block_data_clamps_witness :
  (32 < u8_to_nat x28)%nat /\
  smbus_write_block_data 1%N x2d x10 x28 (storage_of_list [x01; x02; x03]) zeroed =
  smbus_write_block_data 1%N x2d x10 x20 (storage_of_list [x01; x02; x03]) zeroed.
Proof.
  assert (H : (32 < u8_to_nat x28)%nat) by (simpl; lia).
  split; [exact H|].
  exact (proj1 (smbus_write_block_data_clamps 1%N x2d x10 x28
                  (storage_of_list [x01; x02; x03]) zeroed) H).
Defined.

(** C2: the block accesses leave the union.  With length 32 the write
    routine stores the caller's byte values[31] at block[32], the first
    byte after the 32 bytes of the union, whatever was there; and when
    smbus_access succeeds and leaves the length byte 255, the read routine
    loads block[32], and on to block[255], past the union: the caller's
    buffer receives bytes of the stack frame there, whatever the answer
    of smbus_access was. *)
Theorem smbus_block_access_past_union
    (adapter : pointer) (addr command : u8) (values data reply stack : storage) :
  (exists d : storage,
     request_of (smbus_write_block_data adapter addr command x20 values data) =
       Some (mk_smbus_request adapter addr SMBUS_WRITE command SMBUS_BLOCK_DATA (Some d)) /\
     d smbus_data_block_len = values 31%nat) /\
  (let values' :=
     snd (fst (run (scripted_access 0 (store reply 0 xff))
                 (smbus_read_block_data adapter addr command values data stack) [])) in
   values' 31%nat = stack smbus_data_block_len /\ values' 254%nat = stack 255%nat).
Proof.
  split.
  - unfold smbus_write_block_data. cbv zeta. eexists. split; [reflexivity|].
    unfold set_data_block, smbus_data_block_len.
    rewrite store_other by lia.
    rewrite (marshal_loop _ values data 32). reflexivity.
  - cbv zeta. unfold smbus_data_block_len.
    destruct (smbus_read_block_data_success _ (scripted_access 0 (store reply 0 xff))
                adapter addr command values data stack [] (store reply 0 xff) _ eq_refl)
      as [values' [Hrun Hv]].
    rewrite Hrun. simpl fst. simpl snd. rewrite !Hv.
    rewrite store_same. change (u8_to_nat xff) with 255%nat.
    split; (rewrite behind_data_past by (unfold sizeof_smbus_data; lia)); reflexivity.
Qed.

(** ** The command parameter *)

(** C3, as stated, fails: smbus_write_byte puts the byte to transmit in
    the command parameter and passes a NULL data pointer, so the command
    parameter changes with the value. *)
Lemma smbus_write_byte_value_in_command :
  request_of (smbus_write_byte 1%N x2d x5a) =
    Some (mk_smbus_request 1%N x2d SMBUS_WRITE x5a SMBUS_BYTE None) /\
  ~ (forall (adapter : pointer) (addr v1 v2 : u8),
       option_map rq_command (request_of (smbus_write_byte adapter addr v1)) =
       option_map rq_command (request_of (smbus_write_byte adapter addr v2))).
Proof.
  split; [reflexivity|].
  intros H. specialize (H 1%N x2d x00 x5a). discriminate H.
Qed.

(** C3, amended: the Quick routine and the Byte read pass 0 as command;
    the Byte write passes the byte to transmit as command, with a NULL
    data pointer; the ByteData, WordData, ProcCall and BlockData routines
    pass the caller's command on. *)
Theorem smbus_command_parameter
    (char_signed : bool) (byte_order : endianness)
    (adapter : pointer) (addr command value length : u8) (word : u16)
    (values data stack : storage) :
  kind_and_command (smbus_write_quick char_signed adapter addr value)
    = Some (SMBUS_QUICK, x00) /\
  kind_and_command (smbus_read_byte adapter addr data) = Some (SMBUS_BYTE, x00) /\
  request_of (smbus_write_byte adapter addr value)
    = Some (mk_smbus_request adapter addr SMBUS_WRITE value SMBUS_BYTE None) /\
  kind_and_command (smbus_read_byte_data adapter addr command data)
    = Some (SMBUS_BYTE_DATA, command) /\
  kind_and_command (smbus_write_byte_data adapter addr command value data)
    = Some (SMBUS_BYTE_DATA, command) /\
  kind_and_command (smbus_read_word_data byte_order adapter addr command data)
    = Some (SMBUS_WORD_DATA, command) /\
  kind_and_command (smbus_write_word_data byte_order adapter addr command word data)
    = Some (SMBUS_WORD_DATA, command) /\
  kind_and_command (smbus_process_call byte_order adapter addr command word data)
    = Some (SMBUS_PROC_CALL, command) /\
  kind_and_command (smbus_read_block_data adapter addr command values data stack)
    = Some (SMBUS_BLOCK_DATA, command) /\
  kind_and_command (smbus_write_block_data adapter addr command length values data)
    = Some (SMBUS_BLOCK_DATA, command).
Proof.
  repeat split.
Qed.

(** ** The Quick routine *)

(** C9: smbus_write_quick passes its value, converted to char, as the
    read_write flag, so 0 is SMBUS_WRITE and 1 is SMBUS_READ; the command
    is 0, the type SMBUS_QUICK and the data pointer NULL; the routine
    returns the status of smbus_access. *)
Theorem smbus_write_quick_direction
    (char_signed : bool) (adapter : pointer) (addr value : u8) :
  let rq := mk_smbus_request adapter addr (char_of_u8 char_signed value) x00 SMBUS_QUICK None in
  request_of (smbus_write_quick char_signed adapter addr value) = Some rq /\
  char_of_u8 char_signed x00 = SMBUS_WRITE /\
  char_of_u8 char_signed x01 = SMBUS_READ /\
  (char_signed && (128 <=? u8_to_Z value) = false ->
   char_of_u8 char_signed value = u8_to_Z value) /\
  forall (B : Type) (access : smbus_request -> B -> s32 * storage * B) (b : B),
    run access (smbus_write_quick char_signed adapter addr value) b =
    (fst (fst (access rq b)), snd (access rq b)).
Proof.
  cbv zeta. split; [reflexivity|]. split; [|split; [|split]].
  - unfold char_of_u8. rewrite andb_false_r. reflexivity.
  - unfold char_of_u8. rewrite andb_false_r. reflexivity.
  - intros H. unfold char_of_u8. rewrite H. reflexivity.
  - intros B access b. unfold smbus_write_quick. rewrite run_access. reflexivity.
Qed.

Lemma smbus_write_quick_direction_witness :
  true && (128 <=? u8_to_Z x01) = false /\ char_of_u8 true x01 = u8_to_Z x01.
Proof.
  assert (H : true && (128 <=? u8_to_Z x01) = false) by reflexivity.
  split; [exact H|].
  exact (proj1 (proj2 (proj2 (proj2 (smbus_write_quick_direction true 1%N x2d x01)))) H).
Defined.

(** ** The word view *)

Lemma data_word_range (byte_order : endianness) (d : storage) :
  0 <= data_word byte_order d <= 65535.
Proof.
  unfold data_word.
  pose proof (u8_to_Z_range (d 0%nat)). pose proof (u8_to_Z_range (d 1%nat)).
  destruct byte_order; lia.
Qed.

Lemma data_word_set (byte_order : endianness) (d : storage) (v : u16) :
  0 <= v < 65536 -> data_word byte_order (set_data_word byte_order d v) = v.
Proof.
  intros Hv. unfold data_word, set_data_word.
  assert (Hhi : (v / 256) mod 256 = v / 256).
  { apply Z.mod_small. split; [apply Z.div_pos; lia | apply Z.div_lt_upper_bound; lia]. }
  pose proof (Z.div_mod v 256 ltac:(lia)) as Hdm.
  destruct byte_order.
  - rewrite store_other by lia. rewrite !store_same.
    rewrite !u8_to_Z_of_Z, Hhi. lia.
  - rewrite store_other by lia. rewrite !store_same.
    rewrite !u8_to_Z_of_Z, Hhi. lia.
Qed.

(** ** The scalar reads *)

(** C4: each scalar read issues a Read request of its fixed type and
    returns, when smbus_access gives status 0, the byte view (Byte,
    ByteData) or the word view (WordData) of the data it left, and -1 when
    the status is anything else. *)
Theorem smbus_read_scalar
    (byte_order : endianness) (B : Type)
    (access : smbus_request -> B -> s32 * storage * B)
    (adapter : pointer) (addr command : u8) (data : storage) (b : B) :
  (let r := access (mk_smbus_request adapter addr SMBUS_READ x00 SMBUS_BYTE (Some data)) b in
   run access (smbus_read_byte adapter addr data) b =
   ((if fst (fst r) =? 0 then u8_to_Z (data_byte (snd (fst r))) else -1), snd r)) /\
  (let r := access (mk_smbus_request adapter addr SMBUS_READ command SMBUS_BYTE_DATA
                      (Some data)) b in
   run access (smbus_read_byte_data adapter addr command data) b =
   ((if fst (fst r) =? 0 then u8_to_Z (data_byte (snd (fst r))) else -1), snd r)) /\
  (let r := access (mk_smbus_request adapter addr SMBUS_READ command SMBUS_WORD_DATA
                      (Some data)) b in
   run access (smbus_read_word_data byte_order adapter addr command data) b =
   ((if fst (fst r) =? 0 then data_word byte_order (snd (fst r)) else -1), snd r)).
Proof.
  cbv zeta. repeat split.
  - unfold smbus_read_byte. rewrite run_access.
    destruct (fst (fst (access _ b)) =? 0); reflexivity.
  - unfold smbus_read_byte_data. rewrite run_access.
    destruct (fst (fst (access _ b)) =? 0); reflexivity.
  - unfold smbus_read_word_data. rewrite run_access.
    destruct (fst (fst (access _ b)) =? 0); reflexivity.
Qed.

(** ** The process call *)

(** C6: smbus_process_call puts the 16-bit value in the word view of the
    data, calls smbus_access with SMBUS_WRITE and SMBUS_PROC_CALL, and
    returns the word view of the data left by the call when the status is
    0, and -1 otherwise. *)
Theorem smbus_process_call_word
    (byte_order : endianness) (adapter : pointer) (addr command : u8) (value : u16)
    (data : storage) :
  0 <= value < 65536 ->
  exists d : storage,
    let rq := mk_smbus_request adapter addr SMBUS_WRITE command SMBUS_PROC_CALL (Some d) in
    request_of (smbus_process_call byte_order adapter addr command value data) = Some rq /\
    data_word byte_order d = value /\
    forall (B : Type) (access : smbus_request -> B -> s32 * storage * B) (b : B),
      run access (smbus_process_call byte_order adapter addr command value data) b =
      ((if fst (fst (access rq b)) =? 0
        then data_word byte_order (snd (fst (access rq b)))
        else -1),
       snd (access rq b)).
Proof.
  intros Hv. unfold smbus_process_call. cbv zeta.
  eexists. split; [reflexivity|]. split.
  - apply data_word_set. exact Hv.
  - intros B access b. rewrite run_access.
    destruct (fst (fst (access _ b)) =? 0); reflexivity.
Qed.

Lemma smbus_process_call_word_witness :
  0 <= 0xBEEF < 65536 /\
  exists d : storage,
    let rq := mk_smbus_request 1%N x2d SMBUS_WRITE x10 SMBUS_PROC_CALL (Some d) in
    request_of (smbus_process_call LittleEndian 1%N x2d x10 0xBEEF zeroed) = Some rq /\
    data_word LittleEndian d = 0xBEEF /\
    forall (B : Type) (access : smbus_request -> B -> s32 * storage * B) (b : B),
      run access (smbus_process_call LittleEndian 1%N x2d x10 0xBEEF zeroed) b =
      ((if fst (fst (access rq b)) =? 0
        then data_word LittleEndian (snd (fst (access rq b)))
        else -1),
       snd (access rq b)).
Proof.
  split; [lia|].
  apply (smbus_process_call_word LittleEndian 1%N x2d x10 0xBEEF zeroed). lia.
Defined.

(** ** The block read *)



(** ** Results seen by the caller *)

(** C10: after status 0 each read routine returns a value that is not
    negative (a byte up to 255, a word up to 65535, a count up to 255),
    and after any other status it returns -1, whatever the status was. *)
Theorem smbus_read_status_collapsed
    (byte_order : endianness) (B : Type)
    (access : smbus_request -> B -> s32 * storage * B)
    (adapter : pointer) (addr command : u8) (value : u16) (values data stack : storage)
    (b : B) :
  status_collapsed
    (fst (fst (access (mk_smbus_request adapter addr SMBUS_READ x00 SMBUS_BYTE (Some data)) b)))
    (fst (run access (smbus_read_byte adapter addr data) b)) 255 /\
  status_collapsed
    (fst (fst (access (mk_smbus_request adapter addr SMBUS_READ command SMBUS_BYTE_DATA
                         (Some data)) b)))
    (fst (run access (smbus_read_byte_data adapter addr command data) b)) 255 /\
  status_collapsed
    (fst (fst (access (mk_smbus_request adapter addr SMBUS_READ command SMBUS_WORD_DATA
                         (Some data)) b)))
    (fst (run access (smbus_read_word_data byte_order adapter addr command data) b)) 65535 /\
  status_collapsed
    (fst (fst (access (mk_smbus_request adapter addr SMBUS_WRITE command SMBUS_PROC_CALL
                         (Some (set_data_word byte_order data value))) b)))
    (fst (run access (smbus_process_call byte_order adapter addr command value data) b)) 65535 /\
  status_collapsed
    (fst (fst (access (mk_smbus_request adapter addr SMBUS_READ command SMBUS_BLOCK_DATA
                         (Some data)) b)))
    (fst (fst (run access (smbus_read_block_data adapter addr command values data stack) b)))
    255.
Proof.
  unfold status_collapsed.
  unfold smbus_read_byte, smbus_read_byte_data, smbus_read_word_data, smbus_process_call,
    smbus_read_block_data.
  cbv zeta. rewrite !run_access.
  repeat match goal with
  | |- _ /\ _ => split
  | |- _ = 0 -> _ => let H := fresh in intros H; rewrite H; simpl
  | |- _ <> 0 -> _ =>
      let H := fresh in intros H; apply Z.eqb_neq in H; rewrite H; reflexivity
  end;
  solve [ apply u8_to_Z_range | apply data_word_range ].
Qed.

Lemma smbus_read_status_collapsed_witness :
  let reply := storage_of_list [x7f; x01] in
  0 <= fst (run (scripted_access 0 reply) (smbus_read_byte 1%N x2d zeroed) []) <= 255 /\
  fst (run (scripted_access (-5) reply) (smbus_read_byte 1%N x2d zeroed) []) = -1.
Proof.
  intros reply.
  assert (Hne : -5 <> 0) by lia.
  split.
  - exact (proj1 (proj1 (smbus_read_status_collapsed LittleEndian _ (scripted_access 0 reply)
                           1%N x2d x10 0 zeroed zeroed zeroed [])) eq_refl).
  - exact (proj2 (proj1 (smbus_read_status_collapsed LittleEndian _ (scripted_access (-5) reply)
                           1%N x2d x10 0 zeroed zeroed zeroed [])) Hne).
Defined.

(** ** The client list *)

Lemma smbus_attach_client_count (max : Z) (c : smbus_client) (a : smbus_adapter)
    (hooks : list hook_call) :
  adap_client_count a <= max ->
  adap_client_count (snd (fst (smbus_attach_client max c a hooks))) <= max.
Proof.
  intros H. unfold smbus_attach_client.
  destruct (Z.ltb_spec (adap_client_count a) max); simpl; [|exact H].
  destruct (address_taken (cl_addr c) a); simpl; lia.
Qed.

Lemma smbus_detach_client_count (max : Z) (hook : smbus_client -> Z) (c : smbus_client)
    (a : smbus_adapter) (hooks : list hook_call) :
  adap_client_count a <= max ->
  adap_client_count (snd (fst (smbus_detach_client hook c a hooks))) <= max.
Proof.
  intros H. unfold smbus_detach_client. cbv zeta.
  destruct (hook c =? 0); simpl; lia.
Qed.

Lemma apply_op_count (max : Z) (hook : smbus_client -> Z) (op : client_op)
    (st : smbus_adapter * list hook_call) :
  adap_client_count (fst st) <= max ->
  adap_client_count (fst (apply_op max hook op st)) <= max.
Proof.
  intros H. destruct op as [c|c]; simpl.
  - pose proof (smbus_attach_client_count max c (fst st) (snd st) H) as Hc.
    destruct (smbus_attach_client max c (fst st) (snd st)) as [[o a'] h']. exact Hc.
  - pose proof (smbus_detach_client_count max hook c (fst st) (snd st) H) as Hc.
    destruct (smbus_detach_client hook c (fst st) (snd st)) as [[o a'] h']. exact Hc.
Qed.

Lemma apply_ops_count (max : Z) (hook : smbus_client -> Z) (ops : list client_op) :
  forall st : smbus_adapter * list hook_call,
    adap_client_count (fst st) <= max ->
    adap_client_count (fst (apply_ops max hook ops st)) <= max.
Proof.
  induction ops as [|op ops IH]; intros st H.
  - exact H.
  - simpl. apply IH. apply apply_op_count. exact H.
Qed.

(** C7: starting from an adapter whose client_count is within the
    capacity, no history of attach and detach calls takes client_count
    above the capacity; and attaching to a full adapter fails with
    AdapterFull and leaves the adapter, client_count and client list
    included, as it was, with no hook invoked. *)
Theorem client_count_within_capacity
    (I2C_CLIENT_MAX : Z) (driver_detach_client : smbus_client -> Z)
    (a : smbus_adapter) (hooks : list hook_call) (ops : list client_op)
    (c : smbus_client) :
  adap_client_count a <= I2C_CLIENT_MAX ->
  let st := apply_ops I2C_CLIENT_MAX driver_detach_client ops (a, hooks) in
  adap_client_count (fst st) <= I2C_CLIENT_MAX /\
  (I2C_CLIENT_MAX <= adap_client_count (fst st) ->
   smbus_attach_client I2C_CLIENT_MAX c (fst st) (snd st)
     = (Failure AdapterFull, fst st, snd st)).
Proof.
  intros H st. split.
  - apply apply_ops_count. exact H.
  - intros Hfull. unfold smbus_attach_client.
    destruct (Z.ltb_spec (adap_client_count (fst st)) I2C_CLIENT_MAX); [lia | reflexivity].
Qed.

Lemma client_count_within_capacity_witness :
  let st :=
    apply_ops 2 (fun _ => 0)
      [OpAttach (example_client x2d); OpAttach (example_client x48);
       OpAttach (example_client x49)]
      (example_adapter "bus" 0 NULL, []) in
  adap_client_count (example_adapter "bus" 0 NULL) <= 2 /\
  2 <= adap_client_count (fst st) /\
  adap_client_count (fst st) <= 2 /\
  smbus_attach_client 2 (example_client x4a) (fst st) (snd st)
    = (Failure AdapterFull, fst st, snd st).
Proof.
  intros st.
  assert (H0 : adap_client_count (example_adapter "bus" 0 NULL) <= 2) by (simpl; lia).
  assert (Hfull : 2 <= adap_client_count (fst st)) by (simpl; lia).
  destruct (client_count_within_capacity 2 (fun _ => 0) (example_adapter "bus" 0 NULL) []
              [OpAttach (example_client x2d); OpAttach (example_client x48);
               OpAttach (example_client x49)]
              (example_client x4a) H0) as [Hle Hattach].
  split; [exact H0|]. split; [exact Hfull|]. split; [exact Hle|].
  exact (Hattach Hfull).
Defined.

(** ** Where the access routine lives *)

(** C8, as stated, fails: two adapters bound to the same algorithm can
    carry different smbus_access routines. *)
Lemma smbus_access_entry_not_shared :
  ~ (forall a1 a2 : smbus_adapter,
       adap_algo a1 = adap_algo a2 -> adap_smbus_access a1 = adap_smbus_access a2).
Proof.
  intros H.
  specialize (H (example_adapter "piix4" 0 0x1000%N) (example_adapter "ali15x3" 1 0x2000%N)
                eq_refl).
  discriminate H.
Qed.

(** C8, amended: the smbus_access routine is a field of the adapter and
    not of the algorithm.  An algorithm is made of its name, its id and
    the six routines master_xfer, slave_send, slave_recv, algo_control,
    client_register and client_unregister, and of nothing else; an
    adapter is made of its ten i2c fields and, last, its smbus_access
    routine.  So no function of the bound algorithm gives an adapter's
    smbus_access routine, and for any algorithm and any two routines
    there are adapters bound to that algorithm carrying the one and the
    other. *)
Theorem smbus_access_entry_per_adapter :
  (forall algo : smbus_algorithm,
     algo = mk_smbus_algorithm (algo_name algo) (algo_id algo) (algo_master_xfer algo)
              (algo_slave_send algo) (algo_slave_recv algo) (algo_algo_control algo)
              (algo_client_register algo) (algo_client_unregister algo)) /\
  (forall a : smbus_adapter,
     a = mk_smbus_adapter (adap_name a) (adap_id a) (adap_algo a) (adap_data a)
           (adap_lock a) (adap_flags a) (adap_clients a) (adap_client_count a)
           (adap_timeout a) (adap_retries a) (adap_smbus_access a)) /\
  ~ (exists entry : smbus_algorithm -> pointer,
       forall a : smbus_adapter, adap_smbus_access a = entry (adap_algo a)) /\
  (forall (algo : smbus_algorithm) (f g : pointer),
     exists a1 a2 : smbus_adapter,
       adap_algo a1 = algo /\ adap_algo a2 = algo /\
       adap_smbus_access a1 = f /\ adap_smbus_access a2 = g).
Proof.
  split; [|split; [|split]].
  - intros algo. destruct algo. reflexivity.
  - intros a. destruct a. reflexivity.
  - intros [entry H].
    pose proof (H (example_adapter "piix4" 0 0x1000%N)) as H1.
    pose proof (H (example_adapter "ali15x3" 1 0x2000%N)) as H2.
    simpl in H1, H2. rewrite <- H1 in H2. discriminate H2.
  - intros algo f g.
    exists (mk_smbus_adapter "a1" 0 algo NULL false 0 [] 0 0 0 f).
    exists (mk_smbus_adapter "a2" 1 algo NULL false 0 [] 0 0 0 g).
    repeat split.
Qed.

(** ** Worked examples *)

(** A block write of 40 bytes 1, 2, ..., 40: the data passed starts with
    the length byte 32 and holds 1, ..., 31 in the rest of the union; the
    32nd byte lands at offset 32. *)
Example write_block_40 :
  let values : storage := fun i => u8_of_Z (Z.of_nat i + 1) in
  match request_of (smbus_write_block_data 1%N x2d x10 x28 values zeroed) with
  | Some rq =>
      option_map (fun d => map d [0; 1; 2; 31; 32; 33]%nat) (rq_data rq)
      = Some [x20; x01; x02; x1f; x20; x00]
  | None => False
  end.
Proof. reflexivity. Qed.

(** A word read on a little-endian machine, answered with bytes 7f 01,
    and a failed one. *)
Example read_word_017f :
  run (scripted_access 0 (storage_of_list [x7f; x01]))
      (smbus_read_word_data LittleEndian 1%N x2d x10 zeroed) []
  = (0x017f,
     [mk_smbus_request 1%N x2d SMBUS_READ x10 SMBUS_WORD_DATA (Some zeroed)]) /\
  fst (run (scripted_access (-1) (storage_of_list [x7f; x01]))
         (smbus_read_word_data LittleEndian 1%N x2d x10 zeroed) []) = -1.
Proof. split; reflexivity. Qed.

(** A block read answered with the length byte 3. *)
Example read_block_3 :
  let r := run (scripted_access 0 (storage_of_list [x03; xaa; xbb; xcc; xdd]))
             (smbus_read_block_data 1%N x2d x10 zeroed zeroed zeroed) [] in
  fst (fst r) = 3 /\ map (snd (fst r)) [0; 1; 2; 3]%nat = [xaa; xbb; xcc; x00].
Proof. split; reflexivity. Qed.

(** A quick command with value 1 is a read, on either kind of char. *)
Example write_quick_1 :
  option_map rq_read_write (request_of (smbus_write_quick true 1%N x2d x01)) = Some SMBUS_READ /\
  option_map rq_read_write (request_of (smbus_write_quick false 1%N x2d x01)) = Some SMBUS_READ.
Proof. split; reflexivity. Qed.

(** Capacity 2: the third attach fails, and so does a second client at an
    occupied address. *)
Example attach_three :
  let a0 := example_adapter "bus" 0 NULL in
  let '(o1, a1, h1) := smbus_attach_client 2 (example_client x2d) a0 [] in
  let '(o2, a2, h2) := smbus_attach_client 2 (example_client x2d) a1 h1 in
  let '(o3, a3, h3) := smbus_attach_client 2 (example_client x48) a2 h2 in
  let '(o4, a4, h4) := smbus_attach_client 2 (example_client x49) a3 h3 in
  [o1; o2; o3; o4] = [Success; Failure AddressConflict; Success; Failure AdapterFull] /\
  adap_client_count a4 = 2 /\
  map cl_addr (adap_clients a4) = [x2d; x48].
Proof. repeat split. Qed.

(** * Further properties of the access routines *)

(** ** Marshalling of the scalar writes *)

(** X1: smbus_write_byte_data sets the byte view of the data it passes to
    the value and leaves every other byte of the local as it found it. *)
Theorem smbus_write_byte_data_marshals
    (adapter : pointer) (addr command value : u8) (data : storage) :
  exists d : storage,
    request_of (smbus_write_byte_data adapter addr command value data)
      = Some (mk_smbus_request adapter addr SMBUS_WRITE command SMBUS_BYTE_DATA (Some d)) /\
    data_byte d = value /\
    forall j : nat, (1 <= j)%nat -> d j = data j.
Proof.
  unfold smbus_write_byte_data. cbv zeta. eexists. split; [reflexivity|]. split.
  - unfold data_byte, set_data_byte. apply store_same.
  - intros j Hj. unfold set_data_byte. apply store_other. lia.
Qed.

Lemma smbus_write_byte_data_marshals_witness :
  exists d : storage,
    request_of (smbus_write_byte_data 1%N x2d x10 x5a (fun _ => xff))
      = Some (mk_smbus_request 1%N x2d SMBUS_WRITE x10 SMBUS_BYTE_DATA (Some d)) /\
    data_byte d = x5a /\
    forall j : nat, (1 <= j)%nat -> d j = xff.
Proof.
  exact (smbus_write_byte_data_marshals 1%N x2d x10 x5a (fun _ => xff)).
Defined.

Lemma set_data_word_rest (byte_order : endianness) (d : storage) (v : u16) (j : nat) :
  (2 <= j)%nat -> set_data_word byte_order d v j = d j.
Proof.
  intros Hj. unfold set_data_word.
  destruct byte_order; rewrite !store_other by lia; reflexivity.
Qed.

(** X2: smbus_write_word_data puts a 16-bit value in the word view of the
    data it passes, on either byte order, and leaves the bytes from offset
    2 on as it found them. *)
Theorem smbus_write_word_data_marshals
    (byte_order : endianness) (adapter : pointer) (addr command : u8) (value : u16)
    (data : storage) :
  0 <= value < 65536 ->
  exists d : storage,
    request_of (smbus_write_word_data byte_order adapter addr command value data)
      = Some (mk_smbus_request adapter addr SMBUS_WRITE command SMBUS_WORD_DATA (Some d)) /\
    data_word byte_order d = value /\
    forall j : nat, (2 <= j)%nat -> d j = data j.
Proof.
  intros Hv. unfold smbus_write_word_data. cbv zeta. eexists. split; [reflexivity|]. split.
  - apply data_word_set. exact Hv.
  - intros j Hj. apply set_data_word_rest. exact Hj.
Qed.

Lemma smbus_write_word_data_marshals_witness :
  0 <= 0x1234 < 65536 /\
  exists d : storage,
    request_of (smbus_write_word_data BigEndian 1%N x2d x10 0x1234 zeroed)
      = Some (mk_smbus_request 1%N x2d SMBUS_WRITE x10 SMBUS_WORD_DATA (Some d)) /\
    data_word BigEndian d = 0x1234 /\
    forall j : nat, (2 <= j)%nat -> d j = zeroed j.
Proof.
  assert (H : 0 <= 0x1234 < 65536) by lia.
  split; [exact H|].
  exact (smbus_write_word_data_marshals BigEndian 1%N x2d x10 0x1234 zeroed H).
Defined.

(** X3: the five write routines return the status of smbus_access as it
    is, zero or not, after exactly one call; unlike the reads they do not
    turn a failure into -1. *)
Theorem smbus_write_passes_status
    (char_signed : bool) (byte_order : endianness) (B : Type)
    (access : smbus_request -> B -> s32 * storage * B)
    (adapter : pointer) (addr command value length : u8) (word : u16)
    (values data : storage) (b : B) :
  passes_status access (smbus_write_quick char_signed adapter addr value) b /\
  passes_status access (smbus_write_byte adapter addr value) b /\
  passes_status access (smbus_write_byte_data adapter addr command value data) b /\
  passes_status access (smbus_write_word_data byte_order adapter addr command word data) b /\
  passes_status access (smbus_write_block_data adapter addr command length values data) b.
Proof.
  unfold passes_status, smbus_write_quick, smbus_write_byte, smbus_write_byte_data,
    smbus_write_word_data, smbus_write_block_data.
  cbv zeta. simpl request_of. cbv iota. rewrite !run_access.
  repeat split.
Qed.

(** ** Round trips through the union *)

(** X4: a byte written by smbus_write_byte_data comes back from
    smbus_read_byte_data when the read succeeds and is answered with the
    union contents that the write passed. *)
Theorem byte_data_round_trip
    (B : Type) (access : smbus_request -> B -> s32 * storage * B)
    (adapter : pointer) (addr command value : u8) (data data' : storage)
    (rq : smbus_request) (d reply : storage) (b b' : B) :
  request_of (smbus_write_byte_data adapter addr command value data) = Some rq ->
  rq_data rq = Some d ->
  access (mk_smbus_request adapter addr SMBUS_READ command SMBUS_BYTE_DATA (Some data')) b
    = (0, reply, b') ->
  agree_on_union reply d ->
  run access (smbus_read_byte_data adapter addr command data') b = (u8_to_Z value, b').
Proof.
  intros Hrq Hd Hacc Hagree.
  unfold smbus_write_byte_data in Hrq. cbv zeta in Hrq. simpl in Hrq.
  injection Hrq as <-. simpl in Hd. injection Hd as <-.
  unfold smbus_read_byte_data. rewrite run_access, Hacc. simpl.
  unfold data_byte. rewrite (Hagree 0%nat) by (unfold sizeof_smbus_data; lia).
  unfold set_data_byte. rewrite store_same. reflexivity.
Qed.

Lemma byte_data_round_trip_witness :
  run (scripted_access 0 (set_data_byte zeroed x5a))
      (smbus_read_byte_data 1%N x2d x10 zeroed) []
  = (u8_to_Z x5a,
     [mk_smbus_request 1%N x2d SMBUS_READ x10 SMBUS_BYTE_DATA (Some zeroed)]).
Proof.
  apply (byte_data_round_trip _ (scripted_access 0 (set_data_byte zeroed x5a))
           1%N x2d x10 x5a zeroed zeroed
           (mk_smbus_request 1%N x2d SMBUS_WRITE x10 SMBUS_BYTE_DATA
              (Some (set_data_byte zeroed x5a)))
           (set_data_byte zeroed x5a) (set_data_byte zeroed x5a) []).
  - reflexivity.
  - reflexivity.
  - reflexivity.
  - intros i Hi. reflexivity.
Defined.

Lemma data_word_agree (byte_order : endianness) (d1 d2 : storage) :
  agree_on_union d1 d2 -> data_word byte_order d1 = data_word byte_order d2.
Proof.
  intros H. unfold data_word.
  rewrite (H 0%nat), (H 1%nat) by (unfold sizeof_smbus_data; lia). reflexivity.
Qed.

(** X5: a 16-bit word written by smbus_write_word_data comes back from
    smbus_read_word_data, on either byte order, when the read succeeds
    and is answered with the union contents that the write passed. *)
Theorem word_data_round_trip
    (byte_order : endianness) (B : Type)
    (access : smbus_request -> B -> s32 * storage * B)
    (adapter : pointer) (addr command : u8) (value : u16) (data data' : storage)
    (rq : smbus_request) (d reply : storage) (b b' : B) :
  0 <= value < 65536 ->
  request_of (smbus_write_word_data byte_order adapter addr command value data) = Some rq ->
  rq_data rq = Some d ->
  access (mk_smbus_request adapter addr SMBUS_READ command SMBUS_WORD_DATA (Some data')) b
    = (0, reply, b') ->
  agree_on_union reply d ->
  run access (smbus_read_word_data byte_order adapter addr command data') b = (value, b').
Proof.
  intros Hv Hrq Hd Hacc Hagree.
  unfold smbus_write_word_data in Hrq. cbv zeta in Hrq. simpl in Hrq.
  injection Hrq as <-. simpl in Hd. injection Hd as <-.
  unfold smbus_read_word_data. rewrite run_access, Hacc. simpl.
  rewrite (data_word_agree byte_order _ _ Hagree).
  rewrite data_word_set by exact Hv. reflexivity.
Qed.

Lemma word_data_round_trip_witness :
  0 <= 0xBEEF < 65536 /\
  run (scripted_access 0 (set_data_word BigEndian zeroed 0xBEEF))
      (smbus_read_word_data BigEndian 1%N x2d x10 zeroed) []
  = (0xBEEF,
     [mk_smbus_request 1%N x2d SMBUS_READ x10 SMBUS_WORD_DATA (Some zeroed)]).
Proof.
  assert (H : 0 <= 0xBEEF < 65536) by lia.
  split; [exact H|].
  apply (word_data_round_trip BigEndian _
           (scripted_access 0 (set_data_word BigEndian zeroed 0xBEEF))
           1%N x2d x10 0xBEEF zeroed zeroed
           (mk_smbus_request 1%N x2d SMBUS_WRITE x10 SMBUS_WORD_DATA
              (Some (set_data_word BigEndian zeroed 0xBEEF)))
           (set_data_word BigEndian zeroed 0xBEEF)
           (set_data_word BigEndian zeroed 0xBEEF) [] _ H).
  - reflexivity.
  - reflexivity.
  - reflexivity.
  - intros i Hi. reflexivity.
Defined.

(** ** The block routines *)

Lemma clamp_nat (length : u8) :
  u8_to_nat (if (32 <? u8_to_nat length)%nat then x20 else length) =
  Nat.min (u8_to_nat length) 32.
Proof.
  destruct (Nat.ltb_spec 32 (u8_to_nat length)).
  - change (u8_to_nat x20) with 32%nat. lia.
  - lia.
Qed.

(** The bytes that smbus_write_block_data passes: the clamped length at
    offset 0, the caller's bytes at offsets 1 to that length, the local's
    own bytes after. *)
Lemma smbus_write_block_data_bytes
    (adapter : pointer) (addr command length : u8) (values data : storage)
    (rq : smbus_request) (d : storage) :
  request_of (smbus_write_block_data adapter addr command length values data) = Some rq ->
  rq_data rq = Some d ->
  u8_to_nat (d 0%nat) = Nat.min (u8_to_nat length) 32 /\
  (forall j : nat, (1 <= j <= Nat.min (u8_to_nat length) 32)%nat ->
     d j = values (j - 1)%nat) /\
  (forall j : nat, (Nat.min (u8_to_nat length) 32 < j)%nat -> d j = data j).
Proof.
  intros Hrq Hd.
  unfold smbus_write_block_data in Hrq. cbv zeta in Hrq. simpl in Hrq.
  injection Hrq as <-. simpl in Hd. injection Hd as <-.
  unfold set_data_block.
  match goal with
  | |- context [for_1_to (u8_to_nat ?l)] =>
      assert (Hc : u8_to_nat l = Nat.min (u8_to_nat length) 32) by apply clamp_nat;
      set (clamped := l) in *
  end.
  split; [|split].
  - rewrite store_same. exact Hc.
  - intros j Hj. rewrite store_other by lia. rewrite marshal_loop.
    destruct (Nat.leb_spec 1 j); [|lia].
    destruct (Nat.leb_spec j (u8_to_nat clamped)); [reflexivity | lia].
  - intros j Hj. rewrite store_other by lia. rewrite marshal_loop.
    destruct (Nat.leb_spec j (u8_to_nat clamped)); [lia|].
    rewrite andb_false_r. reflexivity.
Qed.

(** X6: a block written by smbus_write_block_data and read back by
    smbus_read_block_data, the read succeeding and being answered with the
    union contents that the write passed: the count is min(length, 32),
    the first min(length, 31) bytes of the buffer are the bytes written,
    and the buffer is untouched from the count on.  The union has room for
    31 payload bytes after the length byte. *)
Theorem block_data_round_trip
    (B : Type) (access : smbus_request -> B -> s32 * storage * B)
    (adapter : pointer) (addr command length : u8)
    (values data buffer data' stack : storage)
    (rq : smbus_request) (d reply : storage) (b b' : B) :
  request_of (smbus_write_block_data adapter addr command length values data) = Some rq ->
  rq_data rq = Some d ->
  access (mk_smbus_request adapter addr SMBUS_READ command SMBUS_BLOCK_DATA (Some data')) b
    = (0, reply, b') ->
  agree_on_union reply d ->
  exists buffer' : storage,
    run access (smbus_read_block_data adapter addr command buffer data' stack) b
      = (Z.of_nat (Nat.min (u8_to_nat length) 32), buffer', b') /\
    (forall i : nat, (i < Nat.min (u8_to_nat length) 31)%nat -> buffer' i = values i) /\
    (forall i : nat, (Nat.min (u8_to_nat length) 32 <= i)%nat -> buffer' i = buffer i).
Proof.
  intros Hrq Hd Hacc Hagree.
  destruct (smbus_write_block_data_bytes _ _ _ _ _ _ _ _ Hrq Hd) as [H0 [Hpay _]].
  assert (Hr0 : reply 0%nat = d 0%nat) by (apply Hagree; unfold sizeof_smbus_data; lia).
  destruct (smbus_read_block_data_success _ access adapter addr command buffer data' stack
              b reply b' Hacc) as [buffer' [Hrun Hv]].
  rewrite Hr0 in Hrun, Hv. rewrite H0 in Hv.
  exists buffer'. split; [|split].
  - rewrite Hrun, u8_to_Z_nat, H0. reflexivity.
  - intros i Hi. rewrite Hv.
    destruct (Nat.ltb_spec i (Nat.min (u8_to_nat length) 32)); [|lia].
    rewrite behind_data_union by (unfold sizeof_smbus_data; lia).
    rewrite (Hagree (S i)) by (unfold sizeof_smbus_data; lia).
    rewrite (Hpay (S i)) by lia. f_equal. lia.
  - intros i Hi. rewrite Hv.
    destruct (Nat.ltb_spec i (Nat.min (u8_to_nat length) 32)); [lia | reflexivity].
Qed.

Lemma block_data_round_trip_witness :
  let values := storage_of_list [xaa; xbb; xcc] in
  let d := set_data_block
             (for_1_to 3 (fun i data => set_data_block data i (values (i - 1)%nat)) zeroed)
             0 x03 in
  let read := mk_smbus_request 1%N x2d SMBUS_READ x10 SMBUS_BLOCK_DATA (Some zeroed) in
  exists buffer' : storage,
    run (scripted_access 0 d)
        (smbus_read_block_data 1%N x2d x10 zeroed zeroed (fun _ => xff)) []
      = (Z.of_nat (Nat.min (u8_to_nat x03) 32), buffer', [read]) /\
    (forall i : nat, (i < Nat.min (u8_to_nat x03) 31)%nat -> buffer' i = values i) /\
    (forall i : nat, (Nat.min (u8_to_nat x03) 32 <= i)%nat -> buffer' i = zeroed i).
Proof.
  intros values d read.
  apply (block_data_round_trip _ (scripted_access 0 d) 1%N x2d x10 x03 values zeroed
           zeroed zeroed (fun _ => xff)
           (mk_smbus_request 1%N x2d SMBUS_WRITE x10 SMBUS_BLOCK_DATA (Some d)) d d []).
  - reflexivity.
  - reflexivity.
  - reflexivity.
  - intros i Hi. reflexivity.
Defined.

(** X7: smbus_write_block_data initialises only the length byte and the
    payload: every byte of the data after offset min(length, 32) is the
    byte the fresh local happened to hold, and is passed on like that. *)
Theorem smbus_write_block_data_rest_untouched
    (adapter : pointer) (addr command length : u8) (values data : storage)
    (rq : smbus_request) (d : storage) (j : nat) :
  request_of (smbus_write_block_data adapter addr command length values data) = Some rq ->
  rq_data rq = Some d ->
  (Nat.min (u8_to_nat length) 32 < j)%nat ->
  d j = data j.
Proof.
  intros Hrq Hd Hj.
  destruct (smbus_write_block_data_bytes _ _ _ _ _ _ _ _ Hrq Hd) as [_ [_ Hrest]].
  apply Hrest. exact Hj.
Qed.

Lemma smbus_write_block_data_rest_untouched_witness :
  let values := storage_of_list [xaa; xbb; xcc] in
  let stack : storage := fun _ => x5a in
  let d := set_data_block
             (for_1_to 3 (fun i data => set_data_block data i (values (i - 1)%nat)) stack)
             0 x03 in
  (Nat.min (u8_to_nat x03) 32 < 4)%nat /\ d 4%nat = stack 4%nat.
Proof.
  intros values stack d.
  assert (H : (Nat.min (u8_to_nat x03) 32 < 4)%nat) by (simpl; lia).
  split; [exact H|].
  exact (smbus_write_block_data_rest_untouched 1%N x2d x10 x03 values stack
           (mk_smbus_request 1%N x2d SMBUS_WRITE x10 SMBUS_BLOCK_DATA (Some d)) d 4
           eq_refl eq_refl H).
Defined.

(** X8: smbus_write_block_data reads the caller's buffer at offsets below
    min(length, 32) only: two buffers that agree there give byte for byte
    the same data, and with length 0 the buffer is not read at all. *)
Theorem smbus_write_block_data_reads_payload_only
    (adapter : pointer) (addr command length : u8) (values1 values2 data : storage)
    (rq1 rq2 : smbus_request) (d1 d2 : storage) :
  (forall i : nat, (i < Nat.min (u8_to_nat length) 32)%nat -> values1 i = values2 i) ->
  request_of (smbus_write_block_data adapter addr command length values1 data) = Some rq1 ->
  rq_data rq1 = Some d1 ->
  request_of (smbus_write_block_data adapter addr command length values2 data) = Some rq2 ->
  rq_data rq2 = Some d2 ->
  forall j : nat, d1 j = d2 j.
Proof.
  intros Hv Hrq1 Hd1 Hrq2 Hd2 j.
  destruct (smbus_write_block_data_bytes _ _ _ _ _ _ _ _ Hrq1 Hd1) as [A0 [Ap Ar]].
  destruct (smbus_write_block_data_bytes _ _ _ _ _ _ _ _ Hrq2 Hd2) as [B0 [Bp Br]].
  destruct (Nat.eq_dec j 0) as [->|Hj0].
  - assert (H : Byte.of_nat (u8_to_nat (d1 0%nat)) = Byte.of_nat (u8_to_nat (d2 0%nat)))
      by (rewrite A0, B0; reflexivity).
    unfold u8_to_nat in H. rewrite !Byte.of_to_nat in H. injection H as H. exact H.
  - destruct (Nat.le_gt_cases j (Nat.min (u8_to_nat length) 32)) as [Hle|Hgt].
    + rewrite Ap, Bp by lia. apply Hv. lia.
    + rewrite Ar, Br by lia. reflexivity.
Qed.

Lemma smbus_write_block_data_reads_payload_only_witness :
  let v1 := storage_of_list [xaa; xbb; x01] in
  let v2 := storage_of_list [xaa; xbb; x02] in
  let image (v : storage) :=
    set_data_block
      (for_1_to 2 (fun i data => set_data_block data i (v (i - 1)%nat)) zeroed) 0 x02 in
  v1 2%nat <> v2 2%nat /\ image v1 2%nat = image v2 2%nat /\ image v1 3%nat = image v2 3%nat.
Proof.
  intros v1 v2 image.
  assert (Hv : forall i : nat, (i < Nat.min (u8_to_nat x02) 32)%nat -> v1 i = v2 i).
  { intros i Hi. simpl in Hi. destruct i as [|[|i]]; [reflexivity | reflexivity | lia]. }
  pose proof (smbus_write_block_data_reads_payload_only 1%N x2d x10 x02 v1 v2 zeroed
                (mk_smbus_request 1%N x2d SMBUS_WRITE x10 SMBUS_BLOCK_DATA (Some (image v1)))
                (mk_smbus_request 1%N x2d SMBUS_WRITE x10 SMBUS_BLOCK_DATA (Some (image v2)))
                (image v1) (image v2) Hv eq_refl eq_refl eq_refl eq_refl) as H.
  split; [discriminate|]. split; [exact (H 2%nat) | exact (H 3%nat)].
Defined.

(** X9: smbus_read_block_data writes the caller's buffer only below the
    value it returns, and that value is at most 255, whatever smbus_access
    answers and whatever lies past the union: the buffer is untouched
    from the returned count on, in particular from offset 255 on, and
    untouched altogether when -1 is returned. *)
Theorem smbus_read_block_data_buffer_extent
    (B : Type) (access : smbus_request -> B -> s32 * storage * B)
    (adapter : pointer) (addr command : u8) (values data stack : storage) (b : B) :
  let r := run access (smbus_read_block_data adapter addr command values data stack) b in
  fst (fst r) <= 255 /\
  forall j : nat, fst (fst r) <= Z.of_nat j -> snd (fst r) j = values j.
Proof.
  cbv zeta.
  destruct (access (mk_smbus_request adapter addr SMBUS_READ command SMBUS_BLOCK_DATA
                      (Some data)) b) as [[status reply] b'] eqn:Hacc.
  destruct (Z.eq_dec status 0) as [->|Hne].
  - destruct (smbus_read_block_data_success _ access adapter addr command values data stack
                b reply b' Hacc) as [values' [Hrun Hv]].
    rewrite Hrun. cbn [fst snd].
    split; [apply u8_to_Z_range|].
    intros j Hj. rewrite Hv. rewrite u8_to_Z_nat in Hj.
    destruct (Nat.ltb_spec j (u8_to_nat (reply 0%nat))); [lia | reflexivity].
  - rewrite (smbus_read_block_data_failure _ access adapter addr command values data stack
               b status reply b' Hacc Hne).
    simpl. split; [lia | reflexivity].
Qed.

Lemma smbus_read_block_data_buffer_extent_witness :
  let r := run (scripted_access 0 (store (fun _ => x55) 0 x03))
             (smbus_read_block_data 1%N x2d x10 zeroed zeroed zeroed) [] in
  fst (fst r) = 3 /\ fst (fst r) <= Z.of_nat 3 /\ snd (fst r) 3%nat = zeroed 3%nat.
Proof.
  intros r.
  assert (H : fst (fst r) <= Z.of_nat 3) by (unfold r; vm_compute; discriminate).
  split; [reflexivity|]. split; [exact H|].
  exact (proj2 (smbus_read_block_data_buffer_extent _
                  (scripted_access 0 (store (fun _ => x55) 0 x03))
                  1%N x2d x10 zeroed zeroed zeroed []) 3%nat H).
Defined.

(** ** The direction flag of the quick command *)

(** X10: smbus_write_quick does not check its value: the read_write flag
    it passes is SMBUS_WRITE only for value 0 and SMBUS_READ only for
    value 1, so every other value reaches smbus_access as a flag that is
    neither. *)
Theorem smbus_write_quick_flag
    (char_signed : bool) (adapter : pointer) (addr value : u8) :
  option_map rq_read_write (request_of (smbus_write_quick char_signed adapter addr value))
    = Some (char_of_u8 char_signed value) /\
  (char_of_u8 char_signed value = SMBUS_WRITE <-> value = x00) /\
  (char_of_u8 char_signed value = SMBUS_READ <-> value = x01).
Proof.
  split; [reflexivity|].
  destruct char_signed, value; vm_compute;
    (split; split; intros H; solve [reflexivity | discriminate H]).
Qed.

Lemma smbus_write_quick_flag_witness :
  char_of_u8 true x01 = SMBUS_READ /\ (char_of_u8 true x80 = SMBUS_WRITE -> x80 = x00).
Proof.
  split.
  - exact (proj2 (proj2 (proj2 (smbus_write_quick_flag true 1%N x2d x01))) eq_refl).
  - exact (proj1 (proj1 (proj2 (smbus_write_quick_flag true 1%N x2d x80)))).
Defined.

(** ** The byte view inside the word view *)

(** X11: the byte and word members share their storage: answered with the
    same data, smbus_read_byte_data returns the low byte of what
    smbus_read_word_data returns on a little-endian machine, and the high
    byte on a big-endian one. *)
Theorem byte_read_is_part_of_word_read
    (byte_order : endianness) (adapter : pointer) (addr command : u8)
    (data reply : storage) (log : list smbus_request) :
  let byte := fst (run (scripted_access 0 reply)
                     (smbus_read_byte_data adapter addr command data) log) in
  let word := fst (run (scripted_access 0 reply)
                     (smbus_read_word_data byte_order adapter addr command data) log) in
  byte = match byte_order with
         | LittleEndian => word mod 256
         | BigEndian => word / 256
         end.
Proof.
  cbv zeta. unfold smbus_read_byte_data, smbus_read_word_data.
  rewrite !run_access. unfold scripted_access. simpl.
  unfold data_word, data_byte.
  pose proof (u8_to_Z_range (reply 0%nat)) as H0.
  pose proof (u8_to_Z_range (reply 1%nat)) as H1.
  destruct byte_order.
  - apply Z.mod_unique with (q := u8_to_Z (reply 1%nat)); lia.
  - apply Z.div_unique with (r := u8_to_Z (reply 1%nat)); lia.
Qed.

(** ** What of a block reaches the union *)

Lemma u8_to_nat_inj (x y : u8) : u8_to_nat x = u8_to_nat y -> x = y.
Proof.
  intros H.
  assert (E : Byte.of_nat (Byte.to_nat x) = Byte.of_nat (Byte.to_nat y))
    by (unfold u8_to_nat in H; rewrite H; reflexivity).
  rewrite !Byte.of_to_nat in E. injection E as E. exact E.
Qed.

(** X12: whatever the length, the 32 bytes of the union passed by
    smbus_write_block_data depend on the first 31 bytes of the caller's
    buffer only: a 32nd payload byte never enters the union. *)
Theorem smbus_write_block_data_union_payload
    (adapter : pointer) (addr command length : u8) (values1 values2 data : storage)
    (rq1 rq2 : smbus_request) (d1 d2 : storage) :
  (forall i : nat, (i < 31)%nat -> values1 i = values2 i) ->
  request_of (smbus_write_block_data adapter addr command length values1 data) = Some rq1 ->
  rq_data rq1 = Some d1 ->
  request_of (smbus_write_block_data adapter addr command length values2 data) = Some rq2 ->
  rq_data rq2 = Some d2 ->
  agree_on_union d1 d2.
Proof.
  intros Hv Hrq1 Hd1 Hrq2 Hd2 i Hi. unfold sizeof_smbus_data in Hi.
  destruct (smbus_write_block_data_bytes _ _ _ _ _ _ _ _ Hrq1 Hd1) as [A0 [Ap Ar]].
  destruct (smbus_write_block_data_bytes _ _ _ _ _ _ _ _ Hrq2 Hd2) as [B0 [Bp Br]].
  destruct (Nat.eq_dec i 0) as [->|Hi0].
  - apply u8_to_nat_inj. rewrite A0, B0. reflexivity.
  - destruct (Nat.le_gt_cases i (Nat.min (u8_to_nat length) 32)) as [Hle|Hgt].
    + rewrite Ap, Bp by lia. apply Hv. lia.
    + rewrite Ar, Br by lia. reflexivity.
Qed.

Lemma smbus_write_block_data_union_payload_witness :
  let v1 : storage := fun i => if Nat.eqb i 31 then x01 else xaa in
  let v2 : storage := fun i => if Nat.eqb i 31 then x02 else xaa in
  let image (v : storage) :=
    set_data_block
      (for_1_to 32 (fun i data => set_data_block data i (v (i - 1)%nat)) zeroed) 0 x20 in
  agree_on_union (image v1) (image v2).
Proof.
  intros v1 v2 image.
  apply (smbus_write_block_data_union_payload 1%N x2d x10 x20 v1 v2 zeroed
           (mk_smbus_request 1%N x2d SMBUS_WRITE x10 SMBUS_BLOCK_DATA (Some (image v1)))
           (mk_smbus_request 1%N x2d SMBUS_WRITE x10 SMBUS_BLOCK_DATA (Some (image v2)))).
  - intros i Hi. unfold v1, v2.
    destruct (Nat.eqb_spec i 31); [lia | reflexivity].
  - reflexivity.
  - reflexivity.
  - reflexivity.
  - reflexivity.
Defined.
